(** * transcribe_whisper.py: a shallow embedding and its contract

    The script reads [sys.argv], tests [os.path.exists] on its first
    argument, asks the [whisper] library for the "base" model, transcribes
    the file and prints the stripped ["text"] entry of the result.

    The embedding follows the script statement by statement in a small
    state-and-exception monad.  The state holds what the process can
    observe or change: the filesystem, the text written to standard output
    and a log of the effectful operations in program order.  The [whisper]
    library is an interface whose operations may raise and may change the
    filesystem (its model cache).  A run is given the imported library, the
    argument list and the filesystem: the three [import] statements are
    taken to have succeeded, and writing to standard output does not fail. *)

From Stdlib Require Import ZArith NArith String Ascii List Sorted Lia.
From stdpp Require Import base numbers option list gmap.

Set Default Proof Using "Type".

(** ** Python strings *)

(** A Python [str] is a sequence of Unicode code points. *)
Abbreviation str := (list N) (only parsing).

Module PyStr.

(** A literal of the script, character by character. *)
Fixpoint lit (s : string) : str :=
  match s with
  | EmptyString => []
  | String c s' => N_of_ascii c :: lit s'
  end.

(** [str.isspace] on one code point: the characters Python treats as
    whitespace (bidirectional class WS, B or S, or category Zs). *)
Definition isspace (c : N) : bool :=
  ((9 <=? c) && (c <=? 13) || (28 <=? c) && (c <=? 32)
   || (c =? 133) || (c =? 160) || (c =? 5760)
   || (8192 <=? c) && (c <=? 8202)
   || (c =? 8232) || (c =? 8233) || (c =? 8239) || (c =? 8287)
   || (c =? 12288))%N.

(** [s.lstrip()] *)
Fixpoint lstrip (s : str) : str :=
  match s with
  | [] => []
  | c :: s' => if isspace c then lstrip s' else s
  end.

(** [s.rstrip()] *)
Definition rstrip (s : str) : str := reverse (lstrip (reverse s)).

(** [s.strip()] with no argument. *)
Definition strip (s : str) : str := rstrip (lstrip s).

(** The line terminator [print] appends. *)
Definition newline : str := [10%N].

End PyStr.

Import PyStr.

(** ** Values, exceptions, the filesystem *)

(** The values found in a transcription result: strings, and everything
    else (segment lists, numbers, [None]), which has no [strip] method. *)
Inductive pyval :=
| VStr (s : str)
| VOpaque.

Inductive exn :=
| IndexError
| KeyError (key : str)
| AttributeError
| LibraryError (msg : str).

(** What a path resolves to. *)
Inductive entry :=
| File (content : list N)
| Directory.

(** The filesystem as seen from the process: the entry each path string
    resolves to, if any. *)
Abbreviation filesystem := (gmap (list N) entry) (only parsing).

(** ** The whisper library *)

(** [whisper.load_model(name)] and [model.transcribe(path)].  Both may
    raise, and both may change the filesystem (the download cache). *)
Record whisper := {
  model : Type;
  load_model : str -> filesystem -> (exn + model) * filesystem;
  transcribe : model -> str -> filesystem -> (exn + gmap str pyval) * filesystem
}.

(** ** Process state and the script monad *)

Inductive event :=
| EvArgCheck (missing : bool)      (* [len(sys.argv) < 2] was evaluated *)
| EvExists (p : str) (found : bool) (* [os.path.exists(p)] returned *)
| EvLoadModel (name : str)         (* [whisper.load_model(name)] was called *)
| EvTranscribe (p : str)           (* [model.transcribe(p)] was called *)
| EvPrint (s : str).               (* [print(s)] was called *)

Record state := {
  fs : filesystem;
  stdout : str;
  trace : list event
}.

Definition log (e : event) (s : state) : state :=
  {| fs := fs s; stdout := stdout s; trace := trace s ++ [e] |}.

(** Why a run of statements stops early. *)
Inductive halt :=
| SystemExit (code : Z)
| Raised (e : exn).

Definition M (A : Type) : Type := state -> (halt + A) * state.

Definition ret {A} (a : A) : M A := fun s => (inr a, s).

Definition bind {A B} (m : M A) (k : A -> M B) : M B :=
  fun s =>
    match m s with
    | (inl h, s') => (inl h, s')
    | (inr a, s') => k a s'
    end.

Definition raise {A} (e : exn) : M A := fun s => (inl (Raised e), s).

Declare Scope script_scope.
Delimit Scope script_scope with script.
Notation "x <- m ;; k" := (bind m (fun x => k))
  (at level 100, m at next level, right associativity) : script_scope.
Notation "m ;; k" := (bind m (fun _ => k))
  (at level 100, right associativity) : script_scope.
Open Scope script_scope.

(** ** The operations the script uses *)

(** [len(sys.argv) < n] *)
Definition len_argv_lt (argv : list str) (n : nat) : M bool :=
  fun s => let b := length argv <? n in (inr b, log (EvArgCheck b) s).

(** [sys.argv[i]] for a non-negative literal index. *)
Definition argv_item (argv : list str) (i : nat) : M str :=
  match argv !! i with
  | Some a => ret a
  | None => raise IndexError
  end.

(** Whether a path resolves to an entry (a file or a directory). *)
Definition resolves (fs0 : filesystem) (p : str) : bool :=
  bool_decide (is_Some (fs0 !! p)).

(** [os.path.exists(p)] *)
Definition os_path_exists (p : str) : M bool :=
  fun s => let b := resolves (fs s) p in (inr b, log (EvExists p b) s).

(** [print(x)]: the text and a newline go to standard output. *)
Definition print (x : str) : M unit :=
  fun s =>
    (inr tt,
     {| fs := fs s; stdout := stdout s ++ x ++ newline;
        trace := trace s ++ [EvPrint x] |}).

(** [sys.exit(code)] *)
Definition sys_exit {A} (code : Z) : M A := fun s => (inl (SystemExit code), s).

Definition lift_lib {A} (r : exn + A) : halt + A :=
  match r with
  | inl e => inl (Raised e)
  | inr a => inr a
  end.

(** [whisper.load_model(name)] *)
Definition whisper_load_model (w : whisper) (name : str) : M (model w) :=
  fun s =>
    let '(r, fs') := load_model w name (fs s) in
    (lift_lib r,
     {| fs := fs'; stdout := stdout s; trace := trace s ++ [EvLoadModel name] |}).

(** [m.transcribe(p)] *)
Definition model_transcribe (w : whisper) (m : model w) (p : str)
  : M (gmap str pyval) :=
  fun s =>
    let '(r, fs') := transcribe w m p (fs s) in
    (lift_lib r,
     {| fs := fs'; stdout := stdout s; trace := trace s ++ [EvTranscribe p] |}).

(** [d[k]] on a dict *)
Definition getitem (d : gmap str pyval) (k : str) : M pyval :=
  match d !! k with
  | Some v => ret v
  | None => raise (KeyError k)
  end.

(** [v.strip()] *)
Definition strip_method (v : pyval) : M str :=
  match v with
  | VStr s => ret (strip s)
  | VOpaque => raise AttributeError
  end.

(** ** The script *)

Definition usage : str := lit "Usage: python transcribe_whisper.py <audio_file_path>".
Definition file_not_found : str := lit "File not found: ".
Definition base : str := lit "base".
Definition text_key : str := lit "text".

Definition script (w : whisper) (argv : list str) : M unit :=
  missing <- len_argv_lt argv 2 ;;
  if missing then
    print usage ;;
    sys_exit 1
  else
    audio_path <- argv_item argv 1 ;;
    found <- os_path_exists audio_path ;;
    if negb found then
      print (file_not_found ++ audio_path) ;;
      sys_exit 1
    else
      m <- whisper_load_model w base ;;
      result <- model_transcribe w m audio_path ;;
      t <- getitem result text_key ;;
      stripped <- strip_method t ;;
      print stripped.

(** ** The process *)

Inductive outcome :=
| Exited (status : Z)
| Crashed (e : exn).

(** An uncaught exception ends the interpreter with status 1. *)
Definition exit_status (o : outcome) : Z :=
  match o with
  | Exited n => n
  | Crashed _ => 1
  end.

Definition initial (fs0 : filesystem) : state :=
  {| fs := fs0; stdout := []; trace := [] |}.

(** Running the script as the main module: falling off the end exits with
    status 0, [SystemExit] exits with its code, any other exception is
    uncaught. *)
Definition run (w : whisper) (argv : list str) (fs0 : filesystem)
  : outcome * state :=
  match script w argv (initial fs0) with
  | (inr tt, s) => (Exited 0, s)
  | (inl (SystemExit c), s) => (Exited c, s)
  | (inl (Raised e), s) => (Crashed e, s)
  end.

(** The calls into the library that a run made. *)
Definition is_lib_call (e : event) : bool :=
  match e with
  | EvLoadModel _ | EvTranscribe _ => true
  | _ => false
  end.

Definition lib_calls (tr : list event) : list event :=
  List.filter is_lib_call tr.

(** The arguments of the [print] calls of a run, in order. *)
Definition printed (tr : list event) : list str :=
  omap (fun e => match e with EvPrint s => Some s | _ => None end) tr.

(** The model variants a run asked the library for, in order. *)
Definition requested (tr : list event) : list str :=
  omap (fun e => match e with EvLoadModel n => Some n | _ => None end) tr.

(** What a finished run shows: its standard output and its log. *)
Definition output (r : outcome * state) : str := stdout (snd r).
Definition events (r : outcome * state) : list event := trace (snd r).

(** ** What stripping means *)

(** A string made of whitespace only. *)
Definition blank (s : str) : Prop := Forall (fun c => isspace c = true) s.

(** A string that neither starts nor ends with whitespace. *)
Definition trimmed (s : str) : Prop :=
  (forall c, head s = Some c -> isspace c = false) /\
  (forall c, last s = Some c -> isspace c = false).

(** [r] is [s] without its leading and trailing whitespace. *)
Definition trim_of (s r : str) : Prop :=
  exists l t, s = l ++ r ++ t /\ blank l /\ blank t /\ trimmed r.

(** Whether a string has a character that is not whitespace. *)
Definition has_ink (s : str) : bool := existsb (fun c => negb (isspace c)) s.

(** The stage of the run an event belongs to. *)
Definition stage (e : event) : nat :=
  match e with
  | EvArgCheck _ => 0
  | EvExists _ _ => 1
  | EvLoadModel _ => 2
  | EvTranscribe _ => 3
  | EvPrint _ => 4
  end.

(** ** Sample worlds *)

Module Sample.

Definition prog : str := lit "transcribe_whisper.py".
Definition clip : str := lit "clip.wav".
Definition clips_dir : str := lit "clips".
Definition cache : str := lit ".cache/whisper/base.pt".

(** One audio file and one directory. *)
Definition disk : filesystem :=
  {[ clip := File [82; 73; 70; 70]%N; clips_dir := Directory ]}.

(** A library that answers every transcription with the same text and
    leaves the filesystem alone. *)
Definition fixed (t : str) : whisper :=
  {| model := unit;
     load_model := fun _ fs0 => (inr tt, fs0);
     transcribe := fun _ _ fs0 => (inr {[ text_key := VStr t ]}, fs0) |}.

(** A library that decodes files only: a path that is not a regular file
    makes [transcribe] raise. *)
Definition decoder (t : str) : whisper :=
  {| model := unit;
     load_model := fun _ fs0 => (inr tt, fs0);
     transcribe := fun _ p fs0 =>
       match fs0 !! p with
       | Some (File _) => (inr {[ text_key := VStr t ]}, fs0)
       | _ => (inl (LibraryError (lit "Failed to load audio")), fs0)
       end |}.

(** A library that stores the model it loads in its cache. *)
Definition caching (t : str) : whisper :=
  {| model := unit;
     load_model := fun _ fs0 => (inr tt, <[ cache := File [80; 75]%N ]> fs0);
     transcribe := fun _ _ fs0 => (inr {[ text_key := VStr t ]}, fs0) |}.

Definition hello_raw : str := lit "  hello world  " ++ [10%N].

End Sample.

(** ** The ways a run can go *)

(** The two checks a run has passed before it reaches the library. *)
Definition checked (p : str) : list event :=
  [EvArgCheck false; EvExists p true].

(** The seven paths through the script, each with the outcome and the final
    state it leaves.  [run_behaviour] below shows that [run] always takes
    exactly the path whose conditions hold. *)
Inductive behaviour (w : whisper) (argv : list str) (fs0 : filesystem)
  : outcome * state -> Prop :=
| B_usage :
    length argv < 2 ->
    behaviour w argv fs0
      (Exited 1,
       {| fs := fs0; stdout := usage ++ newline;
          trace := [EvArgCheck true; EvPrint usage] |})
| B_missing_file p :
    argv !! 1 = Some p -> resolves fs0 p = false ->
    behaviour w argv fs0
      (Exited 1,
       {| fs := fs0; stdout := (file_not_found ++ p) ++ newline;
          trace := [EvArgCheck false; EvExists p false;
                    EvPrint (file_not_found ++ p)] |})
| B_load_raises p e fs1 :
    argv !! 1 = Some p -> resolves fs0 p = true ->
    load_model w base fs0 = (inl e, fs1) ->
    behaviour w argv fs0
      (Crashed e,
       {| fs := fs1; stdout := [];
          trace := checked p ++ [EvLoadModel base] |})
| B_transcribe_raises p m fs1 e fs2 :
    argv !! 1 = Some p -> resolves fs0 p = true ->
    load_model w base fs0 = (inr m, fs1) ->
    transcribe w m p fs1 = (inl e, fs2) ->
    behaviour w argv fs0
      (Crashed e,
       {| fs := fs2; stdout := [];
          trace := checked p ++ [EvLoadModel base; EvTranscribe p] |})
| B_no_text p m fs1 r fs2 :
    argv !! 1 = Some p -> resolves fs0 p = true ->
    load_model w base fs0 = (inr m, fs1) ->
    transcribe w m p fs1 = (inr r, fs2) ->
    r !! text_key = None ->
    behaviour w argv fs0
      (Crashed (KeyError text_key),
       {| fs := fs2; stdout := [];
          trace := checked p ++ [EvLoadModel base; EvTranscribe p] |})
| B_text_not_str p m fs1 r fs2 :
    argv !! 1 = Some p -> resolves fs0 p = true ->
    load_model w base fs0 = (inr m, fs1) ->
    transcribe w m p fs1 = (inr r, fs2) ->
    r !! text_key = Some VOpaque ->
    behaviour w argv fs0
      (Crashed AttributeError,
       {| fs := fs2; stdout := [];
          trace := checked p ++ [EvLoadModel base; EvTranscribe p] |})
| B_transcript p m fs1 r fs2 t :
    argv !! 1 = Some p -> resolves fs0 p = true ->
    load_model w base fs0 = (inr m, fs1) ->
    transcribe w m p fs1 = (inr r, fs2) ->
    r !! text_key = Some (VStr t) ->
    behaviour w argv fs0
      (Exited 0,
       {| fs := fs2; stdout := strip t ++ newline;
          trace := checked p ++
                   [EvLoadModel base; EvTranscribe p; EvPrint (strip t)] |}).

(** A library whose model loading evicts the audio file (a cache that
    reclaims space), used to show that the existence check is not
    repeated. *)
Definition evicting (t : str) : whisper :=
  {| model := unit;
     load_model := fun _ fs0 => (inr tt, delete Sample.clip fs0);
     transcribe := fun _ p fs0 =>
       match fs0 !! p with
       | Some (File _) => (inr {[ text_key := VStr t ]}, fs0)
       | _ => (inl (LibraryError (lit "Failed to load audio")), fs0)
       end |}.

(** A library with no model to offer: [load_model] raises. *)
Definition offline : whisper :=
  {| model := unit;
     load_model := fun _ fs0 =>
       (inl (LibraryError (lit "download failed")), fs0);
     transcribe := fun _ _ fs0 => (inr ∅, fs0) |}.

(** A library whose result carries no "text" entry. *)
Definition textless : whisper :=
  {| model := unit;
     load_model := fun _ fs0 => (inr tt, fs0);
     transcribe := fun _ _ fs0 =>
       (inr {[ lit "language" := VStr (lit "en") ]}, fs0) |}.

(** The paths an event hands to the operating system or to the library. *)
Definition path_used (e : event) : option str :=
  match e with
  | EvExists q _ | EvTranscribe q => Some q
  | _ => None
  end.

(** ** Stripping *)

Section Strip.

Implicit Types (s l t r : list N) (c : N).

Lemma blank_app l t : blank (l ++ t) <-> blank l /\ blank t.
Proof. apply Forall_app. Qed.

Lemma blank_reverse l : blank (reverse l) <-> blank l.
Proof. apply Forall_reverse. Qed.

Lemma blank_no_ink s : blank s <-> has_ink s = false.
Proof.
  unfold blank, has_ink. induction s as [|c s IH]; simpl.
  - split; [done | constructor].
  - rewrite Forall_cons, IH. destruct (isspace c); simpl; intuition congruence.
Qed.

Lemma lstrip_split s : exists l, s = l ++ lstrip s /\ blank l.
Proof.
  induction s as [|c s (l & Hs & Hl)]; simpl.
  - exists []. split; [done | constructor].
  - destruct (isspace c) eqn:Hc.
    + exists (c :: l). split; [simpl; congruence | by constructor].
    + exists []. split; [done | constructor].
Qed.

Lemma lstrip_head s c : head (lstrip s) = Some c -> isspace c = false.
Proof.
  induction s as [|a s IH]; simpl; [done |].
  destruct (isspace a) eqn:Ha; [done |]. simpl. by intros [= <-].
Qed.

Lemma lstrip_blank l s : blank l -> lstrip (l ++ s) = lstrip s.
Proof. induction 1 as [|c l Hc _ IH]; simpl; [done |]. by rewrite Hc. Qed.

Lemma lstrip_all_blank l : blank l -> lstrip l = [].
Proof. intros Hl. by rewrite <- (app_nil_r l), lstrip_blank. Qed.

Lemma lstrip_inked s :
  (forall c, head s = Some c -> isspace c = false) -> lstrip s = s.
Proof. destruct s as [|c s]; simpl; [done |]. intros H. by rewrite (H c). Qed.

Lemma rstrip_split s : exists t, s = rstrip s ++ t /\ blank t.
Proof.
  destruct (lstrip_split (reverse s)) as (l & Hs & Hl).
  exists (reverse l). split; [| by apply blank_reverse].
  unfold rstrip. rewrite <- reverse_app, <- Hs. by rewrite reverse_involutive.
Qed.

Lemma rstrip_last s c : last (rstrip s) = Some c -> isspace c = false.
Proof. unfold rstrip. rewrite last_reverse. apply lstrip_head. Qed.

Lemma rstrip_blank s t : blank t -> rstrip (s ++ t) = rstrip s.
Proof.
  intros Ht. unfold rstrip. rewrite reverse_app, lstrip_blank; [done |].
  by apply blank_reverse.
Qed.

Lemma rstrip_inked s :
  (forall c, last s = Some c -> isspace c = false) -> rstrip s = s.
Proof.
  intros H. unfold rstrip. rewrite lstrip_inked; [apply reverse_involutive |].
  intros c. rewrite head_reverse. apply H.
Qed.

(** [strip] returns the string without its leading and trailing
    whitespace ... *)
Lemma strip_trim_of s : trim_of s (strip s).
Proof.
  destruct (lstrip_split s) as (l & Hs & Hl).
  destruct (rstrip_split (lstrip s)) as (t & Hm & Ht).
  exists l, t. unfold strip. repeat split; try done.
  - by rewrite <- Hm.
  - intros c Hc. apply (lstrip_head s). rewrite Hm.
    destruct (rstrip (lstrip s)); simplify_eq/=; done.
  - apply rstrip_last.
Qed.

(** ... and nothing else does. *)
Lemma trim_of_strip s r : trim_of s r -> strip s = r.
Proof.
  intros (l & t & -> & Hl & Ht & Hhead & Hlast). unfold strip.
  rewrite lstrip_blank by done.
  destruct r as [|c r].
  - simpl. by rewrite lstrip_all_blank.
  - rewrite lstrip_inked.
    + rewrite rstrip_blank by done. by apply rstrip_inked.
    + simpl. intros c' [= <-]. by apply Hhead.
Qed.

Lemma strip_nonempty s : strip s <> [] <-> has_ink s = true.
Proof.
  destruct (strip_trim_of s) as (l & t & Hs & Hl & Ht & Hhead & _).
  split.
  - intros Hne. destruct (has_ink s) eqn:Hink; [done |].
    apply blank_no_ink in Hink. rewrite Hs in Hink.
    apply blank_app in Hink as [_ [Hr _]%blank_app].
    destruct (strip s) as [|c r]; [done |].
    apply Forall_cons in Hr as [Hc _]. rewrite (Hhead c) in Hc; done.
  - intros Hink Hnil. rewrite Hnil in Hs. simpl in Hs.
    assert (blank s) as Hb by (rewrite Hs; by apply blank_app).
    apply blank_no_ink in Hb. congruence.
Qed.

End Strip.

(** ** The script, path by path *)

Section Run.

Context (w : whisper).
Implicit Types (argv : list (list N)) (p : list N).

Lemma argument_present argv p : argv !! 1 = Some p -> (length argv <? 2) = false.
Proof. intros H%lookup_lt_Some. apply Nat.ltb_ge. lia. Qed.

Lemma argument_absent argv : length argv < 2 -> argv !! 1 = None.
Proof. intros H. apply lookup_ge_None. lia. Qed.

Lemma run_behaviour argv (fs0 : gmap (list N) entry) : behaviour w argv fs0 (run w argv fs0).
Proof.
  unfold run, script, bind, len_argv_lt, log, initial. simpl.
  destruct (length argv <? 2) eqn:Hlen.
  { apply Nat.ltb_lt in Hlen. simpl. by apply B_usage. }
  apply Nat.ltb_ge in Hlen.
  destruct (argv !! 1) as [p|] eqn:Hp;
    [| apply lookup_ge_None in Hp; lia].
  unfold argv_item. rewrite Hp. simpl.
  destruct (resolves fs0 p) eqn:Hfound; simpl.
  2: { by apply B_missing_file. }
  unfold whisper_load_model. simpl.
  destruct (load_model w base fs0) as [[e|m] fs1] eqn:Hload; simpl.
  { by eapply B_load_raises. }
  unfold model_transcribe. simpl.
  destruct (transcribe w m p fs1) as [[e|r] fs2] eqn:Htr; simpl.
  { by eapply B_transcribe_raises. }
  unfold getitem.
  destruct (r !! text_key) as [[t|]|] eqn:Htext; simpl.
  - by eapply B_transcript.
  - by eapply B_text_not_str.
  - by eapply B_no_text.
Qed.

End Run.

(** ** The two early exits *)

(** C2: with no path argument the script prints the usage line and exits
    with status 1; the library is never called (no model is loaded, nothing
    is transcribed) and the filesystem is as it was. *)
Theorem usage_on_missing_argument (w : whisper) (argv : list (list N))
    (fs0 : gmap (list N) entry) :
  length argv < 2 ->
  output (run w argv fs0)
    = lit "Usage: python transcribe_whisper.py <audio_file_path>" ++ newline /\
  fst (run w argv fs0) = Exited 1 /\
  lib_calls (events (run w argv fs0)) = [] /\
  fs (snd (run w argv fs0)) = fs0.
Proof.
  intros Hlen. pose proof (argument_absent argv Hlen) as Hnone.
  destruct (run_behaviour w argv fs0); [done | congruence ..].
Qed.

Lemma usage_on_missing_argument_witness :
  length [Sample.prog] < 2 /\
  output (run (Sample.fixed Sample.hello_raw) [Sample.prog] Sample.disk)
    = lit "Usage: python transcribe_whisper.py <audio_file_path>" ++ newline /\
  fst (run (Sample.fixed Sample.hello_raw) [Sample.prog] Sample.disk) = Exited 1.
Proof.
  assert (length [Sample.prog] < 2) as Hlen by (simpl; lia).
  split; [exact Hlen |].
  destruct (usage_on_missing_argument
              (Sample.fixed Sample.hello_raw) [Sample.prog] Sample.disk Hlen)
    as (Hout & Hexit & _).
  split; [exact Hout | exact Hexit].
Defined.

(** C3: when the first path argument does not name an existing entry the
    script prints "File not found: " followed by that path and exits with
    status 1; the library is never called. *)
Theorem missing_file_reported (w : whisper) (argv : list (list N))
    (fs0 : gmap (list N) entry) (p : list N) :
  argv !! 1 = Some p ->
  resolves fs0 p = false ->
  output (run w argv fs0) = (lit "File not found: " ++ p) ++ newline /\
  fst (run w argv fs0) = Exited 1 /\
  lib_calls (events (run w argv fs0)) = [] /\
  fs (snd (run w argv fs0)) = fs0.
Proof.
  intros Hp Hmissing. pose proof (lookup_lt_Some _ _ _ Hp) as Hlen.
  destruct (run_behaviour w argv fs0); simplify_eq; [lia | done | congruence ..].
Qed.

Lemma missing_file_reported_witness :
  [Sample.prog; lit "nonexistent.wav"] !! 1 = Some (lit "nonexistent.wav") /\
  resolves Sample.disk (lit "nonexistent.wav") = false /\
  output (run (Sample.fixed Sample.hello_raw)
            [Sample.prog; lit "nonexistent.wav"] Sample.disk)
    = lit "File not found: nonexistent.wav" ++ newline /\
  fst (run (Sample.fixed Sample.hello_raw)
         [Sample.prog; lit "nonexistent.wav"] Sample.disk) = Exited 1.
Proof.
  assert (resolves Sample.disk (lit "nonexistent.wav") = false) as Hmissing
    by (vm_compute; reflexivity).
  split; [reflexivity |]. split; [exact Hmissing |].
  destruct (missing_file_reported (Sample.fixed Sample.hello_raw)
              [Sample.prog; lit "nonexistent.wav"] Sample.disk
              (lit "nonexistent.wav") eq_refl Hmissing)
    as (Hout & Hexit & _).
  split; [exact Hout | exact Hexit].
Defined.

(** ** The transcription path *)

Section Transcription.

Context (w : whisper) (argv : list (list N)) (fs0 : gmap (list N) entry).
Context (p : list N) (Hp : argv !! 1 = Some p) (Hfound : resolves fs0 p = true).

(** Once both checks pass, the first thing the script does is ask the
    library for the "base" model. *)
Lemma run_reaches_library :
  exists rest, events (run w argv fs0) = checked p ++ EvLoadModel base :: rest.
Proof using Hp Hfound.
  pose proof (lookup_lt_Some _ _ _ Hp) as Hlen.
  destruct (run_behaviour w argv fs0); simplify_eq;
    [lia | congruence | unfold events; simpl; eauto ..].
Qed.

Context (m : model w) (fs1 : gmap (list N) entry)
        (Hload : load_model w base fs0 = (inr m, fs1)).
Context (r : gmap (list N) pyval) (fs2 : gmap (list N) entry)
        (Htranscribe : transcribe w m p fs1 = (inr r, fs2)).
Context (t : list N) (Htext : r !! text_key = Some (VStr t)).

(** The whole run when the library delivers a transcript. *)
Lemma run_transcript :
  run w argv fs0 =
    (Exited 0,
     {| fs := fs2; stdout := strip t ++ newline;
        trace := checked p ++
                 [EvLoadModel base; EvTranscribe p; EvPrint (strip t)] |}).
Proof using Hp Hfound Hload Htranscribe Htext.
  pose proof (lookup_lt_Some _ _ _ Hp) as Hlen.
  destruct (run_behaviour w argv fs0); simplify_eq; first [lia | congruence | done].
Qed.

End Transcription.

(** C1 as stated fails: a path that exists need not be something the
    library can transcribe.  Here the argument names an existing directory;
    both checks pass, the model is loaded, [transcribe] raises, nothing is
    printed and the process ends with status 1. *)
Lemma existing_path_can_crash :
  [Sample.prog; Sample.clips_dir] !! 1 = Some Sample.clips_dir /\
  resolves Sample.disk Sample.clips_dir = true /\
  run (Sample.decoder (lit "hello")) [Sample.prog; Sample.clips_dir] Sample.disk
    = (Crashed (LibraryError (lit "Failed to load audio")),
       {| fs := Sample.disk; stdout := [];
          trace := [EvArgCheck false; EvExists Sample.clips_dir true;
                    EvLoadModel (lit "base");
                    EvTranscribe Sample.clips_dir] |}) /\
  exit_status
    (fst (run (Sample.decoder (lit "hello"))
            [Sample.prog; Sample.clips_dir] Sample.disk)) = 1%Z.
Proof. vm_compute. repeat split; reflexivity. Qed.

(** C1, amended: when the first path argument names an existing entry the
    script asks the library for the "base" model; and when loading returns a
    model, transcribing the path with it returns a result and the result's
    "text" entry is a string, the script prints that string without its
    leading and trailing whitespace, followed by a newline, and exits with
    status 0. *)
Theorem transcribes_existing_file (w : whisper) (argv : list (list N))
    (fs0 : gmap (list N) entry) (p : list N) :
  argv !! 1 = Some p ->
  resolves fs0 p = true ->
  (exists rest,
     events (run w argv fs0)
       = [EvArgCheck false; EvExists p true; EvLoadModel (lit "base")] ++ rest) /\
  (forall m fs1 r fs2 t,
     load_model w (lit "base") fs0 = (inr m, fs1) ->
     transcribe w m p fs1 = (inr r, fs2) ->
     r !! lit "text" = Some (VStr t) ->
     events (run w argv fs0)
       = [EvArgCheck false; EvExists p true; EvLoadModel (lit "base");
          EvTranscribe p; EvPrint (strip t)] /\
     trim_of t (strip t) /\
     output (run w argv fs0) = strip t ++ newline /\
     fst (run w argv fs0) = Exited 0).
Proof.
  intros Hp Hfound. split.
  - exact (run_reaches_library w argv fs0 p Hp Hfound).
  - intros m fs1 r fs2 t Hload Htranscribe Htext.
    rewrite (run_transcript w argv fs0 p Hp Hfound m fs1 Hload r fs2 Htranscribe t Htext).
    repeat split; try reflexivity. apply strip_trim_of.
Qed.

Lemma transcribes_existing_file_witness :
  [Sample.prog; Sample.clip] !! 1 = Some Sample.clip /\
  resolves Sample.disk Sample.clip = true /\
  output (run (Sample.caching (lit " Testing, one two three. "))
            [Sample.prog; Sample.clip] Sample.disk)
    = lit "Testing, one two three." ++ newline /\
  fst (run (Sample.caching (lit " Testing, one two three. "))
         [Sample.prog; Sample.clip] Sample.disk) = Exited 0.
Proof.
  assert (resolves Sample.disk Sample.clip = true) as Hfound
    by (vm_compute; reflexivity).
  split; [reflexivity |]. split; [exact Hfound |].
  destruct (transcribes_existing_file
              (Sample.caching (lit " Testing, one two three. "))
              [Sample.prog; Sample.clip] Sample.disk Sample.clip
              eq_refl Hfound) as [_ Hrun].
  destruct (Hrun tt _ _ _ (lit " Testing, one two three. ")
              eq_refl eq_refl eq_refl) as (_ & _ & Hout & Hexit).
  split; [exact Hout | exact Hexit].
Defined.

(** C4: the string the script prints is the transcript the model returned
    without its leading and trailing whitespace, and it is the only string
    with that property; a transcript "  hello world  \n" is printed as
    "hello world". *)
Theorem printed_transcript_is_stripped (w : whisper) (argv : list (list N))
    (fs0 fs1 fs2 : gmap (list N) entry) (p t : list N) (m : model w)
    (r : gmap (list N) pyval) :
  argv !! 1 = Some p ->
  resolves fs0 p = true ->
  load_model w base fs0 = (inr m, fs1) ->
  transcribe w m p fs1 = (inr r, fs2) ->
  r !! text_key = Some (VStr t) ->
  printed (events (run w argv fs0)) = [strip t] /\
  output (run w argv fs0) = strip t ++ newline /\
  (forall x, trim_of t x <-> x = strip t) /\
  strip (lit "  hello world  " ++ newline) = lit "hello world".
Proof.
  intros Hp Hfound Hload Htranscribe Htext.
  rewrite (run_transcript w argv fs0 p Hp Hfound m fs1 Hload r fs2 Htranscribe t Htext).
  repeat split; try reflexivity.
  - intros Hx. symmetry. by apply trim_of_strip.
  - intros ->. apply strip_trim_of.
Qed.

Lemma printed_transcript_is_stripped_witness :
  [Sample.prog; Sample.clip] !! 1 = Some Sample.clip /\
  resolves Sample.disk Sample.clip = true /\
  printed (events (run (Sample.fixed (lit "  hello world  " ++ newline))
                     [Sample.prog; Sample.clip] Sample.disk))
    = [lit "hello world"] /\
  output (run (Sample.fixed (lit "  hello world  " ++ newline))
            [Sample.prog; Sample.clip] Sample.disk)
    = lit "hello world" ++ newline.
Proof.
  assert (resolves Sample.disk Sample.clip = true) as Hfound
    by (vm_compute; reflexivity).
  split; [reflexivity |]. split; [exact Hfound |].
  destruct (printed_transcript_is_stripped
              (Sample.fixed (lit "  hello world  " ++ newline))
              [Sample.prog; Sample.clip] Sample.disk Sample.disk Sample.disk
              Sample.clip (lit "  hello world  " ++ newline) tt
              {[ text_key := VStr (lit "  hello world  " ++ newline) ]}
              eq_refl Hfound eq_refl eq_refl eq_refl)
    as (Hprinted & Hout & _).
  split; [exact Hprinted | exact Hout].
Defined.

(** C6 as stated fails: a clip for which the model returns only whitespace
    is transcribed successfully, and the printed string is empty. *)
Lemma blank_transcript_prints_empty_line :
  resolves Sample.disk Sample.clip = true /\
  fst (run (Sample.fixed (lit "   ")) [Sample.prog; Sample.clip] Sample.disk)
    = Exited 0 /\
  printed (events (run (Sample.fixed (lit "   "))
                     [Sample.prog; Sample.clip] Sample.disk)) = [ [] ] /\
  output (run (Sample.fixed (lit "   ")) [Sample.prog; Sample.clip] Sample.disk)
    = newline.
Proof. vm_compute. repeat split; reflexivity. Qed.

(** C6, amended: when the audio file exists and the library transcribes it,
    the script exits with status 0 and prints one string, the transcript
    without its leading and trailing whitespace, followed by a newline; that
    string is non-empty exactly when the transcript has a character that is
    not whitespace. *)
Theorem success_prints_trimmed_transcript (w : whisper) (argv : list (list N))
    (fs0 fs1 fs2 : gmap (list N) entry) (p t : list N) (m : model w)
    (r : gmap (list N) pyval) :
  argv !! 1 = Some p ->
  resolves fs0 p = true ->
  load_model w base fs0 = (inr m, fs1) ->
  transcribe w m p fs1 = (inr r, fs2) ->
  r !! text_key = Some (VStr t) ->
  fst (run w argv fs0) = Exited 0 /\
  printed (events (run w argv fs0)) = [strip t] /\
  output (run w argv fs0) = strip t ++ newline /\
  trim_of t (strip t) /\
  (forall x, trim_of t x -> x = strip t) /\
  (strip t <> [] <-> has_ink t = true).
Proof.
  intros Hp Hfound Hload Htranscribe Htext.
  rewrite (run_transcript w argv fs0 p Hp Hfound m fs1 Hload r fs2 Htranscribe t Htext).
  split_and!; try reflexivity.
  - apply strip_trim_of.
  - intros x Hx. symmetry. by apply trim_of_strip.
  - apply strip_nonempty.
Qed.

Lemma success_prints_trimmed_transcript_witness :
  [Sample.prog; Sample.clip] !! 1 = Some Sample.clip /\
  resolves Sample.disk Sample.clip = true /\
  fst (run (Sample.decoder (lit " So long. ")) [Sample.prog; Sample.clip] Sample.disk)
    = Exited 0 /\
  printed (events (run (Sample.decoder (lit " So long. "))
                     [Sample.prog; Sample.clip] Sample.disk))
    = [lit "So long."] /\
  output (run (Sample.decoder (lit " So long. ")) [Sample.prog; Sample.clip]
            Sample.disk)
    = lit "So long." ++ newline.
Proof.
  assert (resolves Sample.disk Sample.clip = true) as Hfound
    by (vm_compute; reflexivity).
  split; [reflexivity |]. split; [exact Hfound |].
  destruct (success_prints_trimmed_transcript
              (Sample.decoder (lit " So long. "))
              [Sample.prog; Sample.clip] Sample.disk Sample.disk Sample.disk
              Sample.clip (lit " So long. ") tt
              {[ text_key := VStr (lit " So long. ") ]}
              eq_refl Hfound eq_refl eq_refl eq_refl)
    as (Hexit & Hprinted & Hout & _).
  split; [exact Hexit |]. split; [exact Hprinted | exact Hout].
Defined.

(** ** Order of the steps *)

Lemma stages_ascend_intro (tr : list event) :
  StronglySorted (fun a b => stage a < stage b) tr <->
  StronglySorted lt (stage <$> tr).
Proof.
  induction tr as [|e tr IH]; simpl.
  - split; constructor.
  - split; intros Hs; apply StronglySorted_inv in Hs as [Hs He];
      (constructor; [by apply IH |]).
    + rewrite List.Forall_forall in He. apply List.Forall_forall.
      intros n (e' & <- & Hin)%List.in_map_iff. by apply He.
    + rewrite List.Forall_forall in He. apply List.Forall_forall.
      intros e' Hin. apply He. by apply List.in_map.
Qed.

(** C5: every run starts with the argument check; its steps come in the
    order argument check, existence check, model loading, transcription,
    printing, each at most once; a call into the library happens only after
    both checks have passed; and when either check fails the library is not
    called at all. *)
Theorem steps_in_fixed_order (w : whisper) (argv : list (list N))
    (fs0 : gmap (list N) entry) :
  head (events (run w argv fs0)) = Some (EvArgCheck (length argv <? 2)) /\
  StronglySorted (fun a b => stage a < stage b) (events (run w argv fs0)) /\
  (forall e, e ∈ events (run w argv fs0) -> is_lib_call e = true ->
     exists p, argv !! 1 = Some p /\ resolves fs0 p = true /\
       EvArgCheck false ∈ events (run w argv fs0) /\
       EvExists p true ∈ events (run w argv fs0)) /\
  (length argv < 2 \/ (exists p, argv !! 1 = Some p /\ resolves fs0 p = false) ->
   lib_calls (events (run w argv fs0)) = []).
Proof.
  destruct (run_behaviour w argv fs0) as
    [Hlen | p Hp Hmiss | p e fs1 Hp Hfound _ | p m fs1 e fs2 Hp Hfound _ _
     | p m fs1 r fs2 Hp Hfound _ _ _ | p m fs1 r fs2 Hp Hfound _ _ _
     | p m fs1 r fs2 t Hp Hfound _ _ _ ];
    unfold events; simpl.
  { apply Nat.ltb_lt in Hlen as Hlt. rewrite Hlt.
    split_and!;
      [done | apply stages_ascend_intro; simpl; repeat first [lia | constructor]
      | | done].
    intros e He Hlib. exfalso.
    apply elem_of_cons in He as [-> | He]; [done |].
    apply list_elem_of_singleton in He as ->. done. }
  { rewrite (argument_present argv p Hp).
    split_and!;
      [done | apply stages_ascend_intro; simpl; repeat first [lia | constructor]
      | | done].
    intros e He Hlib. exfalso.
    repeat (apply elem_of_cons in He as [-> | He]; [done |]).
    by apply elem_of_nil in He. }
  all: rewrite (argument_present argv p Hp).
  all: split_and!;
    [done | apply stages_ascend_intro; simpl; repeat first [lia | constructor] | |].
  all: try (intros _ _ _; exists p; split_and!; try done; set_solver).
  all: intros [Hlen | (q & Hq & Hmiss)];
    [apply lookup_lt_Some in Hp; lia | congruence].
Qed.

(** ** The model variant *)

(** C7: the variants a run asks the library for are ["base"] when both
    checks pass and none otherwise, whatever the arguments are: every
    variant requested is "base". *)
Theorem model_variant_is_base (w : whisper) (argv : list (list N))
    (fs0 : gmap (list N) entry) :
  requested (events (run w argv fs0))
    = match argv !! 1 with
      | Some p => if resolves fs0 p then [lit "base"] else []
      | None => []
      end /\
  Forall (fun name => name = lit "base") (requested (events (run w argv fs0))).
Proof.
  destruct (run_behaviour w argv fs0) as
    [Hlen | p Hp Hmiss | p e fs1 Hp Hfound _ | p m fs1 e fs2 Hp Hfound _ _
     | p m fs1 r fs2 Hp Hfound _ _ _ | p m fs1 r fs2 Hp Hfound _ _ _
     | p m fs1 r fs2 t Hp Hfound _ _ _ ];
    unfold events; simpl.
  { rewrite (argument_absent argv Hlen). by split. }
  { rewrite Hp, Hmiss. by split. }
  all: rewrite Hp, Hfound; split; [done | by repeat constructor].
Qed.

(** ** Files *)

(** C8: the script itself leaves the filesystem alone.  Whatever relation
    between filesystems the library's two operations maintain (equality for
    a library that writes nothing; "the audio file is unchanged" for one
    that fills a cache), the whole run maintains it; and everything on
    standard output is a line written by [print]. *)
Theorem only_the_library_touches_files (w : whisper) (argv : list (list N))
    (fs0 : gmap (list N) entry) (R : relation (gmap (list N) entry)) :
  PreOrder R ->
  (forall name d, R d (snd (load_model w name d))) ->
  (forall m p d, R d (snd (transcribe w m p d))) ->
  R fs0 (fs (snd (run w argv fs0))) /\
  output (run w argv fs0)
    = concat ((fun line => line ++ newline) <$> printed (events (run w argv fs0))).
Proof.
  intros HR Hload Htranscribe.
  destruct (run_behaviour w argv fs0) as
    [Hlen | p Hp Hmiss | p e fs1 Hp Hfound Hl | p m fs1 e fs2 Hp Hfound Hl Ht
     | p m fs1 r fs2 Hp Hfound Hl Ht _ | p m fs1 r fs2 Hp Hfound Hl Ht _
     | p m fs1 r fs2 t Hp Hfound Hl Ht _ ];
    unfold output, events; simpl; (split; [| by rewrite ?app_nil_r]).
  1, 2: reflexivity.
  { specialize (Hload base fs0). by rewrite Hl in Hload. }
  all: specialize (Hload base fs0); rewrite Hl in Hload;
    specialize (Htranscribe m p fs1); rewrite Ht in Htranscribe;
    by transitivity fs1.
Qed.

Lemma only_the_library_touches_files_witness :
  fs (snd (run (Sample.fixed (lit "hi")) [Sample.prog; Sample.clip] Sample.disk))
    = Sample.disk /\
  (forall d, snd (load_model (Sample.caching (lit "hi")) base d) !! Sample.clip
             = d !! Sample.clip) /\
  fs (snd (run (Sample.caching (lit "hi")) [Sample.prog; Sample.clip] Sample.disk))
    !! Sample.clip = Sample.disk !! Sample.clip.
Proof.
  split.
  { (* a library that writes nothing: the filesystem is as it was *)
    symmetry.
    refine (proj1 (only_the_library_touches_files
                     (Sample.fixed (lit "hi")) [Sample.prog; Sample.clip]
                     Sample.disk eq _ _ _)).
    - intros name d. reflexivity.
    - intros m p d. reflexivity. }
  (* a library that fills its cache: the audio file is as it was *)
  assert (forall name (d : gmap (list N) entry),
            d !! Sample.clip
            = snd (load_model (Sample.caching (lit "hi")) name d) !! Sample.clip)
    as Hload.
  { intros name d. simpl. symmetry. by apply lookup_insert_ne. }
  split; [intros d; symmetry; apply Hload |].
  symmetry.
  refine (proj1 (only_the_library_touches_files
                   (Sample.caching (lit "hi")) [Sample.prog; Sample.clip]
                   Sample.disk
                   (fun d d' => d !! Sample.clip = d' !! Sample.clip)
                   _ Hload _)).
  - split; [intros d; reflexivity | intros d1 d2 d3 H12 H23; congruence].
  - intros m p d. reflexivity.
Defined.

(** ** Arguments *)

(** C9: two invocations with the same first path argument run identically
    (same library calls, same output, same exit status, same final
    filesystem), whatever their further arguments are. *)
Theorem extra_arguments_ignored (w : whisper) (argv argv' : list (list N))
    (fs0 : gmap (list N) entry) (p : list N) :
  argv !! 1 = Some p ->
  argv' !! 1 = Some p ->
  run w argv fs0 = run w argv' fs0.
Proof.
  intros Hp Hp'.
  unfold run, script, bind, len_argv_lt, argv_item.
  rewrite (argument_present argv p Hp), (argument_present argv' p Hp').
  by rewrite Hp, Hp'.
Qed.

Lemma extra_arguments_ignored_witness :
  [Sample.prog; Sample.clip] !! 1 = Some Sample.clip /\
  [Sample.prog; Sample.clip; lit "--model"; lit "large"] !! 1 = Some Sample.clip /\
  run (Sample.fixed Sample.hello_raw) [Sample.prog; Sample.clip] Sample.disk
    = run (Sample.fixed Sample.hello_raw)
        [Sample.prog; Sample.clip; lit "--model"; lit "large"] Sample.disk.
Proof.
  split; [reflexivity |]. split; [reflexivity |].
  exact (extra_arguments_ignored (Sample.fixed Sample.hello_raw)
           [Sample.prog; Sample.clip]
           [Sample.prog; Sample.clip; lit "--model"; lit "large"]
           Sample.disk Sample.clip eq_refl eq_refl).
Defined.

(** C10: the usage line is a fixed text: whatever name the script is
    invoked under, it prints "Usage: python transcribe_whisper.py
    <audio_file_path>", which does not depend on [sys.argv[0]]. *)
Theorem usage_text_is_fixed (w : whisper) (fs0 : gmap (list N) entry)
    (name : list N) :
  printed (events (run w [name] fs0))
    = [lit "Usage: python transcribe_whisper.py <audio_file_path>"] /\
  output (run w [name] fs0)
    = lit "Usage: python transcribe_whisper.py <audio_file_path>" ++ newline.
Proof. split; reflexivity. Qed.

(** ** Failures of the library *)

(** X1: an exception raised by [whisper.load_model] is not caught: the run
    ends with that exception and status 1, [transcribe] is never called and
    nothing is printed. *)
Theorem load_failure_propagates (w : whisper) (argv : list (list N))
    (fs0 fs1 : gmap (list N) entry) (p : list N) (e : exn) :
  argv !! 1 = Some p ->
  resolves fs0 p = true ->
  load_model w base fs0 = (inl e, fs1) ->
  fst (run w argv fs0) = Crashed e /\
  exit_status (fst (run w argv fs0)) = 1%Z /\
  output (run w argv fs0) = [] /\
  lib_calls (events (run w argv fs0)) = [EvLoadModel (lit "base")].
Proof.
  intros Hp Hfound Hload. pose proof (lookup_lt_Some _ _ _ Hp) as Hlen.
  destruct (run_behaviour w argv fs0); simplify_eq;
    first [lia | congruence | split_and!; first [reflexivity | simpl; congruence]].
Qed.

Lemma load_failure_propagates_witness :
  resolves Sample.disk Sample.clip = true /\
  fst (run offline [Sample.prog; Sample.clip] Sample.disk)
    = Crashed (LibraryError (lit "download failed")) /\
  output (run offline [Sample.prog; Sample.clip] Sample.disk) = [].
Proof.
  assert (resolves Sample.disk Sample.clip = true) as Hfound
    by (vm_compute; reflexivity).
  split; [exact Hfound |].
  destruct (load_failure_propagates offline [Sample.prog; Sample.clip]
              Sample.disk Sample.disk Sample.clip
              (LibraryError (lit "download failed")) eq_refl Hfound eq_refl)
    as (Hcrash & _ & Hout & _).
  split; [exact Hcrash | exact Hout].
Defined.

(** X2: an exception raised by [model.transcribe] is not caught either: the
    run ends with that exception and status 1 after exactly the two library
    calls, and nothing is printed. *)
Theorem transcribe_failure_propagates (w : whisper) (argv : list (list N))
    (fs0 fs1 fs2 : gmap (list N) entry) (p : list N) (m : model w) (e : exn) :
  argv !! 1 = Some p ->
  resolves fs0 p = true ->
  load_model w base fs0 = (inr m, fs1) ->
  transcribe w m p fs1 = (inl e, fs2) ->
  fst (run w argv fs0) = Crashed e /\
  exit_status (fst (run w argv fs0)) = 1%Z /\
  output (run w argv fs0) = [] /\
  lib_calls (events (run w argv fs0))
    = [EvLoadModel (lit "base"); EvTranscribe p].
Proof.
  intros Hp Hfound Hload Htr. pose proof (lookup_lt_Some _ _ _ Hp) as Hlen.
  destruct (run_behaviour w argv fs0); simplify_eq;
    first [lia | congruence | split_and!; first [reflexivity | simpl; congruence]].
Qed.

Lemma transcribe_failure_propagates_witness :
  resolves Sample.disk Sample.clips_dir = true /\
  fst (run (Sample.decoder (lit "hi")) [Sample.prog; Sample.clips_dir] Sample.disk)
    = Crashed (LibraryError (lit "Failed to load audio")) /\
  output (run (Sample.decoder (lit "hi")) [Sample.prog; Sample.clips_dir]
            Sample.disk) = [].
Proof.
  assert (resolves Sample.disk Sample.clips_dir = true) as Hfound
    by (vm_compute; reflexivity).
  split; [exact Hfound |].
  destruct (transcribe_failure_propagates (Sample.decoder (lit "hi"))
              [Sample.prog; Sample.clips_dir] Sample.disk Sample.disk
              Sample.disk Sample.clips_dir tt
              (LibraryError (lit "Failed to load audio"))
              eq_refl Hfound eq_refl eq_refl)
    as (Hcrash & _ & Hout & _).
  split; [exact Hcrash | exact Hout].
Defined.

(** X3: a result without a "text" entry makes [result["text"]] raise
    [KeyError]: the run ends with status 1 and prints nothing, although both
    library calls succeeded. *)
Theorem missing_text_key_raises (w : whisper) (argv : list (list N))
    (fs0 fs1 fs2 : gmap (list N) entry) (p : list N) (m : model w)
    (r : gmap (list N) pyval) :
  argv !! 1 = Some p ->
  resolves fs0 p = true ->
  load_model w base fs0 = (inr m, fs1) ->
  transcribe w m p fs1 = (inr r, fs2) ->
  r !! lit "text" = None ->
  fst (run w argv fs0) = Crashed (KeyError (lit "text")) /\
  exit_status (fst (run w argv fs0)) = 1%Z /\
  printed (events (run w argv fs0)) = [] /\
  output (run w argv fs0) = [].
Proof.
  intros Hp Hfound Hload Htr Htext. pose proof (lookup_lt_Some _ _ _ Hp) as Hlen.
  change (lit "text") with text_key in Htext.
  destruct (run_behaviour w argv fs0); simplify_eq;
    first [lia | congruence | split_and!; first [reflexivity | simpl; congruence]].
Qed.

Lemma missing_text_key_raises_witness :
  resolves Sample.disk Sample.clip = true /\
  fst (run textless [Sample.prog; Sample.clip] Sample.disk)
    = Crashed (KeyError (lit "text")).
Proof.
  assert (resolves Sample.disk Sample.clip = true) as Hfound
    by (vm_compute; reflexivity).
  split; [exact Hfound |].
  exact (proj1 (missing_text_key_raises textless [Sample.prog; Sample.clip]
                  Sample.disk Sample.disk Sample.disk Sample.clip tt
                  {[ lit "language" := VStr (lit "en") ]}
                  eq_refl Hfound eq_refl eq_refl eq_refl)).
Defined.

(** ** Exit status and output *)


(** X5: a run that ends cleanly (either early exit or success) has made
    exactly one [print] call, and standard output is that text and a
    newline; a run that ends with an uncaught exception has printed
    nothing. *)
Theorem output_by_outcome (w : whisper) (argv : list (list N))
    (fs0 : gmap (list N) entry) :
  match fst (run w argv fs0) with
  | Exited _ =>
      exists line,
        printed (events (run w argv fs0)) = [line] /\
        output (run w argv fs0) = line ++ newline
  | Crashed _ =>
      printed (events (run w argv fs0)) = [] /\ output (run w argv fs0) = []
  end.
Proof.
  destruct (run_behaviour w argv fs0); unfold events, output; simpl;
    first [by split | by eexists].
Qed.

(** ** What the arguments are used for *)

(** X6: [sys.argv[0]] is never read: two invocations that differ only in
    the program name run identically, on every path. *)
Theorem program_name_ignored (w : whisper) (name name' : list N)
    (rest : list (list N)) (fs0 : gmap (list N) entry) :
  run w (name :: rest) fs0 = run w (name' :: rest) fs0.
Proof. reflexivity. Qed.

(** X7: every path the run hands to [os.path.exists] or to
    [model.transcribe] is [sys.argv[1]] exactly as given: the script
    neither normalises the path nor looks at any other one. *)
Theorem only_the_given_path_is_used (w : whisper) (argv : list (list N))
    (fs0 : gmap (list N) entry) :
  Forall (fun q => argv !! 1 = Some q)
         (omap path_used (events (run w argv fs0))).
Proof.
  destruct (run_behaviour w argv fs0); unfold events; simpl;
    repeat constructor; done.
Qed.

(** X8: the existence check is made once, on the filesystem as it was at
    the start: when the model loads, transcription of the path is attempted
    whatever loading did to the filesystem, and nothing but printing
    follows it. *)
Theorem existence_checked_once (w : whisper) (argv : list (list N))
    (fs0 fs1 : gmap (list N) entry) (p : list N) (m : model w) :
  argv !! 1 = Some p ->
  resolves fs0 p = true ->
  load_model w base fs0 = (inr m, fs1) ->
  exists rest,
    events (run w argv fs0)
      = [EvArgCheck false; EvExists p true; EvLoadModel (lit "base");
         EvTranscribe p] ++ rest /\
    Forall (fun e => stage e = 4) rest.
Proof.
  intros Hp Hfound Hload. pose proof (lookup_lt_Some _ _ _ Hp) as Hlen.
  destruct (run_behaviour w argv fs0); simplify_eq; unfold events; simpl;
    try first [lia | congruence].
  1-3: by exists [].
  eexists [_]. split; [done |]. by repeat constructor.
Qed.

Lemma existence_checked_once_witness :
  resolves Sample.disk Sample.clip = true /\
  resolves (snd (load_model (evicting (lit "hi")) base Sample.disk)) Sample.clip
    = false /\
  exists rest,
    events (run (evicting (lit "hi")) [Sample.prog; Sample.clip] Sample.disk)
      = [EvArgCheck false; EvExists Sample.clip true; EvLoadModel (lit "base");
         EvTranscribe Sample.clip] ++ rest /\
    Forall (fun e => stage e = 4) rest.
Proof.
  assert (resolves Sample.disk Sample.clip = true) as Hfound
    by (vm_compute; reflexivity).
  split; [exact Hfound |]. split; [vm_compute; reflexivity |].
  exact (existence_checked_once (evicting (lit "hi"))
           [Sample.prog; Sample.clip] Sample.disk
           (delete Sample.clip Sample.disk) Sample.clip tt
           eq_refl Hfound eq_refl).
Defined.

(** ** More on stripping *)

(** X9: whitespace around a transcript does not change what is printed:
    stripping a string with whitespace added on either side gives the same
    result as stripping the string itself. *)
Theorem strip_ignores_surrounding_whitespace (l s t : list N) :
  blank l -> blank t -> strip (l ++ s ++ t) = strip s.
Proof.
  intros Hl Ht. apply trim_of_strip.
  destruct (strip_trim_of s) as (l' & t' & Hs & Hl' & Ht' & Htrim).
  exists (l ++ l'), (t' ++ t). split_and!.
  - rewrite Hs at 1. by rewrite <- !app_assoc.
  - by apply blank_app.
  - by apply blank_app.
  - exact Htrim.
Qed.

Lemma strip_ignores_surrounding_whitespace_witness :
  blank (lit "  ") /\ blank [9; 10]%N /\
  strip (lit "  " ++ lit "a b" ++ [9; 10]%N) = strip (lit "a b").
Proof.
  assert (blank (lit "  ")) as Hl by (repeat constructor).
  assert (blank [9; 10]%N) as Ht by (repeat constructor).
  split; [exact Hl |]. split; [exact Ht |].
  exact (strip_ignores_surrounding_whitespace (lit "  ") (lit "a b") [9; 10]%N
           Hl Ht).
Defined.

(** X10: stripping leaves a string as it is exactly when the string
    neither starts nor ends with whitespace; in particular stripping twice
    is the same as stripping once. *)
Theorem strip_fixes_trimmed (s : list N) :
  (strip s = s <-> trimmed s) /\ strip (strip s) = strip s.
Proof.
  assert (forall x : list N, trimmed x -> strip x = x) as Hfix.
  { intros x Hx. apply trim_of_strip. exists [], []. split_and!.
    - by rewrite app_nil_r.
    - constructor.
    - constructor.
    - exact Hx. }
  assert (trimmed (strip s)) as Htrim.
  { by destruct (strip_trim_of s) as (_ & _ & _ & _ & _ & H). }
  split; [split |].
  - intros Heq. by rewrite <- Heq.
  - apply Hfix.
  - by apply Hfix.
Qed.
